(** * Pashu Mitra AI backend: a shallow embedding of [main.py]

    The development follows the source file top to bottom:
    - Python values the handlers manipulate ([str], [dict], floats);
    - the three keyword heuristics ([_mock_classifier_labels],
      [_mock_snake_assessment], [_mock_emotion]);
    - a small state-and-exception monad for the effectful handlers;
    - the POST endpoints [classify], [snake], [emotion] and the GET
      endpoint [test_database];
    - the properties of the gateway. *)

From Stdlib Require Import List String Ascii Bool NArith ZArith Lia.
From Stdlib Require Import Floats.PrimFloat.
Import ListNotations.

(* ================================================================== *)
(** ** Python strings *)

(** A Python [str] is a sequence of code points.  Literals of the source
    that are plain ASCII are written [py "..."]; the few symbols outside
    ASCII are spelled by code point below. *)
Module PyStr.

Definition str := list N.

Definition py (s : string) : str :=
  map N_of_ascii (list_ascii_of_string s).

(** [a == b] *)
Fixpoint eqb (a b : str) : bool :=
  match a, b with
  | [], [] => true
  | x :: a', y :: b' => N.eqb x y && eqb a' b'
  | _, _ => false
  end.

(** [s.startswith(p)] *)
Fixpoint startswith (p s : str) : bool :=
  match p, s with
  | [], _ => true
  | _ :: _, [] => false
  | x :: p', y :: s' => N.eqb x y && startswith p' s'
  end.

(** [k in s]: [k] occurs in [s] as a contiguous substring *)
Fixpoint contains (k s : str) : bool :=
  startswith k s ||
  match s with
  | [] => false
  | _ :: s' => contains k s'
  end.

(** [any(k in name for k in keys)] *)
Definition any_in (keys : list str) (name : str) : bool :=
  existsb (fun k => contains k name) keys.

(** [s[:n]] *)
Definition slice_to (n : nat) (s : str) : str := firstn n s.

(** Truthiness of a string: only the empty string is falsy. *)
Definition truthy (s : str) : bool :=
  match s with [] => false | _ :: _ => true end.

(** [str.lower] restricted to the letters A-Z; it agrees with Python's
    [str.lower] on every ASCII string. *)
Definition lower_code (c : N) : N :=
  if (N.leb 65 c && N.leb c 90)%bool then (c + 32)%N else c.

Definition ascii_lower (s : str) : str := map lower_code s.

End PyStr.
Import PyStr.

(* ================================================================== *)
(** ** Predictions and confidences *)

(** Confidences are Python floats, i.e. IEEE 754 binary64 numbers; the
    literals below are rounded to the nearest double exactly as Python's
    parser rounds them. *)
#[local] Set Warnings "-inexact-float".

(** One element of the [List[dict]] the heuristics return: the dict
    [{"label": l, "confidence": c}]. *)
Record Prediction := mkPrediction {
  label : str;
  confidence : float
}.

Definition in_unit_interval (c : float) : bool :=
  (PrimFloat.leb 0 c && PrimFloat.leb c 1)%bool.

(** Adjacent confidences never increase. *)
Fixpoint descending (ps : list Prediction) : bool :=
  match ps with
  | [] => true
  | p :: rest =>
      match rest with
      | [] => true
      | q :: _ => PrimFloat.leb (confidence q) (confidence p) && descending rest
      end
  end.

(** [sum(p["confidence"] for p in ps)]: float additions, left to right,
    starting from 0. *)
Definition sum_confidences (ps : list Prediction) : float :=
  fold_left (fun acc p => PrimFloat.add acc (confidence p)) ps 0%float.

(** The sum differs from the double [1.0]. *)
Definition not_exactly_one (ps : list Prediction) : bool :=
  negb (PrimFloat.eqb (sum_confidences ps) 1).

(** The sum lies between [0.93] and [1.0]. *)
Definition approximately_one (ps : list Prediction) : bool :=
  (PrimFloat.leb 0.93 (sum_confidences ps)
   && PrimFloat.leb (sum_confidences ps) 1)%bool.

(* ================================================================== *)
(** ** Utility heuristics (mock AI) *)

Section Heuristics.

(** Python's built-in [str.lower]: the Unicode lowercase mapping, which
    is not part of the repository.  Every statement below holds for any
    such mapping. *)
Variable lower : str -> str.

Definition _mock_classifier_labels (filename : str) : list Prediction :=
  let name := lower filename in
  if any_in [py "cow"; py "cattle"; py "bovine"] name then
    [ mkPrediction (py "Cow") 0.92;
      mkPrediction (py "Buffalo") 0.05;
      mkPrediction (py "Yak") 0.03 ]
  else if any_in [py "dog"; py "canine"] name then
    [ mkPrediction (py "Dog") 0.90;
      mkPrediction (py "Wolf") 0.06;
      mkPrediction (py "Fox") 0.04 ]
  else if any_in [py "cat"; py "feline"] name then
    [ mkPrediction (py "Cat") 0.91;
      mkPrediction (py "Lynx") 0.05;
      mkPrediction (py "Puma") 0.04 ]
  else
    [ mkPrediction (py "Unknown Animal") 0.60;
      mkPrediction (py "Dog") 0.22;
      mkPrediction (py "Cat") 0.18 ].

Definition _mock_snake_assessment (filename : str) : list Prediction :=
  let name := lower filename in
  let venom := any_in [py "cobra"; py "viper"; py "krait"] name in
  let label := if venom then py "Venomous Snake" else py "Non-venomous Snake" in
  let preds :=
    [ mkPrediction label (if venom then 0.88 else 0.82)%float;
      mkPrediction (py "Rat Snake") 0.08;
      mkPrediction (py "Other") 0.04 ] in
  preds.

Definition _mock_emotion (filename : str) : list Prediction :=
  let name := lower filename in
  if any_in [py "happy"; py "smile"] name then
    [ mkPrediction (py "Happy") 0.93;
      mkPrediction (py "Relaxed") 0.05;
      mkPrediction (py "Alert") 0.02 ]
  else if any_in [py "angry"; py "growl"; py "hiss"] name then
    [ mkPrediction (py "Agitated") 0.88;
      mkPrediction (py "Alert") 0.08;
      mkPrediction (py "Neutral") 0.04 ]
  else
    [ mkPrediction (py "Neutral") 0.70;
      mkPrediction (py "Curious") 0.20;
      mkPrediction (py "Relaxed") 0.10 ].

End Heuristics.

(* ================================================================== *)
(** ** Dicts, uploads and exceptions *)

(** The values stored in the [meta] dict and in the [/test] report. *)
Inductive value :=
| VNone
| VStr (s : str)
| VInt (n : Z)
| VList (l : list str).

(** A Python [dict] with string keys, in insertion order. *)
Definition dict := list (str * value).

(** [d.get(k)] *)
Fixpoint dict_get (k : str) (d : dict) : option value :=
  match d with
  | [] => None
  | (k', v) :: d' => if PyStr.eqb k k' then Some v else dict_get k d'
  end.

(** [d[k] = v]: overwrite in place, or append a new key. *)
Fixpoint dict_set (k : str) (v : value) (d : dict) : dict :=
  match d with
  | [] => [(k, v)]
  | (k', v') :: d' =>
      if PyStr.eqb k k' then (k', v) :: d' else (k', v') :: dict_set k v d'
  end.

(** [k in d] *)
Definition has_key (k : str) (d : dict) : bool :=
  match dict_get k d with Some _ => true | None => false end.

(** Starlette's [UploadFile]: the part's file name, its Content-Type
    header (absent headers read as [None]) and the spooled file that holds
    the bytes. *)
Record UploadFile := mkUploadFile {
  filename : str;
  content_type : option str;
  file : N
}.

Definition value_of_optional (o : option str) : value :=
  match o with
  | Some s => VStr s
  | None => VNone
  end.

(** The [payload] dict of the POST handlers, shaped as the
    [PredictionResponse] model of the source. *)
Record PredictionResponse := mkPredictionResponse {
  module : str;
  predictions : list Prediction;
  meta : dict
}.

(** Keyword arguments of the [AnalysisLog(...)] constructor call. *)
Record AnalysisLogArgs := mkAnalysisLogArgs {
  log_module : str;
  log_filenames : list str;
  log_content_types : list (option str);
  log_sizes : list nat;
  log_result : PredictionResponse
}.

(** Instances of [Exception] raised by the collaborators the handlers
    call into: the file stream, [schemas], [database], the store driver.
    [ImportError] is told apart because [test_database] has a clause of
    its own for it. *)
Inductive error :=
| ImportError (msg : str)
| OtherError (msg : str).

(** [str(e)] *)
Definition error_str (e : error) : str :=
  match e with
  | ImportError msg => msg
  | OtherError msg => msg
  end.

(** What a handler can raise. *)
Inductive exception :=
| HTTPException (status_code : Z) (detail : str)
| Failure (e : error).

Inductive outcome (A : Type) :=
| Return (a : A)
| Raise (e : exception).
Arguments Return {A} a.
Arguments Raise {A} e.

(** Calls that leave the handler, in the order they are issued. *)
Inductive event :=
| EvRead (f : UploadFile)
| EvAnalysisLog (module_name : str)
| EvCreateDocument (collection : str)
| EvImportDb
| EvListCollectionNames.

(* ================================================================== *)
(** ** The collaborators outside [main.py] *)

(** Everything the handlers reach outside the file: the upload streams,
    the [schemas] and [database] modules, the store driver and the process
    environment.  A collaborator receives the state of the outside world
    and returns the new state together with its result or the exception
    it raised.  Arguments are passed by value: no collaborator updates a
    dict of the handler in place (pydantic copies the [result] dict it
    validates). *)
Record Runtime := mkRuntime {
  World : Type;
  LogDoc : Type;
  Database : Type;
  (** [await f.read()] *)
  read : UploadFile -> World -> World * (error + list Byte.byte);
  (** [AnalysisLog(module=..., filenames=..., ...)] *)
  AnalysisLog : AnalysisLogArgs -> World -> World * (error + LogDoc);
  (** [create_document(collection, log)] *)
  create_document : str -> LogDoc -> World -> World * (error + str);
  (** [from database import db]; [None] is an uninitialised handle *)
  import_db : World -> World * (error + option Database);
  (** [db.name], when [hasattr(db, 'name')] *)
  db_name : Database -> option str;
  (** [db.list_collection_names()] *)
  list_collection_names : Database -> World -> World * (error + list str);
  (** [os.getenv(key)] *)
  getenv : str -> World -> option str
}.

Record State (rt : Runtime) := mkState {
  world : World rt;
  trace : list event
}.
Arguments world {rt} s.
Arguments trace {rt} s.

(* ================================================================== *)
(** ** State and exceptions *)

Definition M (rt : Runtime) (A : Type) : Type :=
  State rt -> State rt * outcome A.

Definition ret {rt : Runtime} {A : Type} (a : A) : M rt A :=
  fun st => (st, Return a).

Definition raise {rt : Runtime} {A : Type} (e : exception) : M rt A :=
  fun st => (st, Raise e).

Definition bind {rt : Runtime} {A B : Type} (c : M rt A) (k : A -> M rt B) : M rt B :=
  fun st =>
    match c st with
    | (st', Return a) => k a st'
    | (st', Raise e) => (st', Raise e)
    end.

Declare Scope py_scope.
Delimit Scope py_scope with py.
Notation "x <- c ;; k" := (bind c (fun x => k))
  (at level 61, c at next level, right associativity) : py_scope.
Notation "c ;;; k" := (bind c (fun _ => k))
  (at level 61, right associativity) : py_scope.

(** A call to a collaborator: it is recorded, then run on the world. *)
Definition invoke {rt : Runtime} {A : Type} (ev : event)
    (op : World rt -> World rt * (error + A)) (st : State rt)
  : State rt * (error + A) :=
  let (w', r) := op (world st) in
  (mkState rt w' (trace st ++ [ev]), r).

(** The same call inside a handler: an exception of the collaborator
    propagates. *)
Definition call {rt : Runtime} {A : Type} (ev : event)
    (op : World rt -> World rt * (error + A)) : M rt A :=
  fun st =>
    match invoke ev op st with
    | (st', inr a) => (st', Return a)
    | (st', inl e) => (st', Raise (Failure e))
    end.

(** [try: body / except Exception: pass] *)
Definition try_except_pass {rt : Runtime} (body : M rt unit) : M rt unit :=
  fun st => let (st', _) := body st in (st', Return tt).

(** A list comprehension whose element expression has effects. *)
Fixpoint comprehension {rt : Runtime} {A B : Type} (f : A -> M rt B) (xs : list A)
  : M rt (list B) :=
  match xs with
  | [] => ret []
  | x :: xs' =>
      (y <- f x ;; ys <- comprehension f xs' ;; ret (y :: ys))%py
  end.

(* ================================================================== *)
(** ** Endpoints *)

(** Symbols of the [/test] report that lie outside ASCII. *)
Definition CHECK_MARK : str := [9989%N].            (* U+2705 *)
Definition CROSS_MARK : str := [10060%N].           (* U+274C *)
Definition WARNING_SIGN : str := [9888%N; 65039%N]. (* U+26A0 U+FE0F *)

Section Gateway.

Variable lower : str -> str.
Variable rt : Runtime.

Local Open Scope py_scope.

(** The body of the [try] block that the three POST handlers share up to
    the module name: build the [AnalysisLog] entry (the keyword arguments
    are evaluated left to right, the files are read one by one for their
    sizes) and hand it to [create_document]. *)
Definition log_analysis (module_name : str) (files : list UploadFile)
    (payload : PredictionResponse) : M rt unit :=
  let filenames := map filename files in
  let content_types := map content_type files in
  sizes <- comprehension
             (fun f => data <- call (EvRead f) (read rt f) ;; ret (List.length data))
             files ;;
  log <- call (EvAnalysisLog module_name)
           (AnalysisLog rt
              (mkAnalysisLogArgs module_name filenames content_types sizes payload)) ;;
  _ <- call (EvCreateDocument (py "analysislog"))
         (create_document rt (py "analysislog") log) ;;
  ret tt.

(** [POST /api/classify] *)
Definition classify (files : list UploadFile) : M rt PredictionResponse :=
  match files with
  | [] => raise (HTTPException 400 (py "No files uploaded"))
  | first :: _ =>
      let predictions := _mock_classifier_labels lower (filename first) in
      let meta :=
        [ (py "filename", VStr (filename first));
          (py "content_type", value_of_optional (content_type first));
          (py "files_count", VInt (Z.of_nat (List.length files))) ] in
      let payload := mkPredictionResponse (py "classifier") predictions meta in
      try_except_pass (log_analysis (py "classifier") files payload) ;;;
      ret payload
  end.

(** [predictions[0]["label"] == "Venomous Snake"] *)
Definition top_is_venomous (predictions : list Prediction) : bool :=
  match predictions with
  | [] => false
  | top :: _ => PyStr.eqb (label top) (py "Venomous Snake")
  end.

(** [POST /api/snake] *)
Definition snake (files : list UploadFile) : M rt PredictionResponse :=
  match files with
  | [] => raise (HTTPException 400 (py "No files uploaded"))
  | first :: _ =>
      let predictions := _mock_snake_assessment lower (filename first) in
      let venomous := top_is_venomous predictions in
      let meta :=
        [ (py "filename", VStr (filename first));
          (py "content_type", value_of_optional (content_type first));
          (py "danger",
           VStr (if venomous then py "Dangerous" else py "Generally Safe"));
          (py "files_count", VInt (Z.of_nat (List.length files))) ] in
      let payload := mkPredictionResponse (py "snake") predictions meta in
      try_except_pass (log_analysis (py "snake") files payload) ;;;
      ret payload
  end.

(** [POST /api/emotion] *)
Definition emotion (files : list UploadFile) : M rt PredictionResponse :=
  match files with
  | [] => raise (HTTPException 400 (py "No files uploaded"))
  | first :: _ =>
      let predictions := _mock_emotion lower (filename first) in
      let meta :=
        [ (py "filename", VStr (filename first));
          (py "content_type", value_of_optional (content_type first));
          (py "files_count", VInt (Z.of_nat (List.length files))) ] in
      let payload := mkPredictionResponse (py "emotion") predictions meta in
      try_except_pass (log_analysis (py "emotion") files payload) ;;;
      ret payload
  end.

(** ["<ok> Set" if os.getenv(key) else "<no> Not Set"] *)
Definition env_flag (key : str) (w : World rt) : value :=
  match getenv rt key w with
  | Some v =>
      if truthy v then VStr (CHECK_MARK ++ py " Set")
      else VStr (CROSS_MARK ++ py " Not Set")
  | None => VStr (CROSS_MARK ++ py " Not Set")
  end.

(** The [response] dict [test_database] starts from. *)
Definition initial_report : dict :=
  [ (py "backend", VStr (CHECK_MARK ++ py " Running"));
    (py "database", VStr (CROSS_MARK ++ py " Not Available"));
    (py "database_url", VNone);
    (py "database_name", VNone);
    (py "connection_status", VStr (py "Not Connected"));
    (py "collections", VList []) ].

(** [GET /test].  [response] is a local dict updated in place, so each
    branch carries the dict as it stands when the branch is left; the two
    collaborator calls are the only places an exception comes from. *)
Definition test_database : M rt dict :=
  fun st =>
    let response := initial_report in
    let (st1, response) :=
      match invoke EvImportDb (import_db rt) st with
      | (st1, inr (Some db)) =>
          let response :=
            dict_set (py "database") (VStr (CHECK_MARK ++ py " Available")) response in
          let response :=
            dict_set (py "database_url") (VStr (CHECK_MARK ++ py " Configured")) response in
          let response :=
            dict_set (py "database_name")
              (match db_name rt db with
               | Some name => VStr name
               | None => VStr (CHECK_MARK ++ py " Connected")
               end) response in
          let response :=
            dict_set (py "connection_status") (VStr (py "Connected")) response in
          match invoke EvListCollectionNames (list_collection_names rt db) st1 with
          | (st2, inr collections) =>
              let response :=
                dict_set (py "collections") (VList (firstn 10 collections)) response in
              let response :=
                dict_set (py "database")
                  (VStr (CHECK_MARK ++ py " Connected & Working")) response in
              (st2, response)
          | (st2, inl e) =>
              (st2,
               dict_set (py "database")
                 (VStr (WARNING_SIGN ++ py "  Connected but Error: "
                        ++ slice_to 50 (error_str e)))
                 response)
          end
      | (st1, inr None) =>
          (st1,
           dict_set (py "database")
             (VStr (WARNING_SIGN ++ py "  Available but not initialized")) response)
      | (st1, inl (ImportError _)) =>
          (st1,
           dict_set (py "database")
             (VStr (CROSS_MARK
                    ++ py " Database module not found (run enable-database first)"))
             response)
      | (st1, inl e) =>
          (st1,
           dict_set (py "database")
             (VStr (CROSS_MARK ++ py " Error: " ++ slice_to 50 (error_str e)))
             response)
      end in
    let response :=
      dict_set (py "database_url") (env_flag (py "DATABASE_URL") (world st1)) response in
    let response :=
      dict_set (py "database_name") (env_flag (py "DATABASE_NAME") (world st1)) response in
    (st1, Return response).

End Gateway.

(** What FastAPI sends for the outcome of a handler: status 200 with the
    returned value as JSON body, the status and detail of a raised
    [HTTPException], and status 500 for any other exception. *)
Inductive body (A : Type) :=
| Json (a : A)
| Detail (detail : str)
| InternalServerError.
Arguments Json {A} a.
Arguments Detail {A} detail.
Arguments InternalServerError {A}.

Record Response (A : Type) := mkResponse {
  status : Z;
  content : body A
}.
Arguments mkResponse {A} status content.
Arguments status {A} r.
Arguments content {A} r.

Definition respond {A : Type} (o : outcome A) : Response A :=
  match o with
  | Return a => mkResponse 200 (Json a)
  | Raise (HTTPException status_code detail) => mkResponse status_code (Detail detail)
  | Raise (Failure _) => mkResponse 500 InternalServerError
  end.

(** The three POST routes, as the [@app.post] decorators bind them. *)
Inductive route := ApiClassify | ApiSnake | ApiEmotion.

(** The heuristic each route consults. *)
Definition reference_module (lower : str -> str) (r : route) : str -> list Prediction :=
  match r with
  | ApiClassify => _mock_classifier_labels lower
  | ApiSnake => _mock_snake_assessment lower
  | ApiEmotion => _mock_emotion lower
  end.

(** The function each route is bound to.  *)
Definition handler (lower : str -> str) (rt : Runtime) (r : route)
  : list UploadFile -> M rt PredictionResponse :=
  match r with
  | ApiClassify => classify lower rt
  | ApiSnake => snake lower rt
  | ApiEmotion => emotion lower rt
  end.

(** The payload a route builds from the first file and the batch size,
    before any collaborator is called. *)
Definition composed (lower : str -> str) (r : route) (first : UploadFile) (count : nat)
  : PredictionResponse :=
  let predictions := reference_module lower r (filename first) in
  let head_meta :=
    [ (py "filename", VStr (filename first));
      (py "content_type", value_of_optional (content_type first)) ] in
  let tail_meta := [ (py "files_count", VInt (Z.of_nat count)) ] in
  match r with
  | ApiClassify =>
      mkPredictionResponse (py "classifier") predictions (head_meta ++ tail_meta)
  | ApiSnake =>
      mkPredictionResponse (py "snake") predictions
        (head_meta
         ++ [ (py "danger",
               VStr (if top_is_venomous predictions
                     then py "Dangerous" else py "Generally Safe")) ]
         ++ tail_meta)
  | ApiEmotion =>
      mkPredictionResponse (py "emotion") predictions (head_meta ++ tail_meta)
  end.

(** The fields the [/test] report is documented to carry. *)
Definition documented_fields : list str :=
  [ py "backend"; py "database"; py "database_url"; py "database_name";
    py "connection_status"; py "collections" ].

(** The top prediction of a payload: [predictions[0]]. *)
Definition top_prediction (p : PredictionResponse) : option Prediction :=
  hd_error (predictions p).

(* ================================================================== *)
(** ** Two concrete deployments *)

(** No store is configured: [database.db] is [None] and
    [create_document] raises.  A file's handle doubles as its size. *)
Definition no_store : Runtime :=
  {| World := unit;
     LogDoc := AnalysisLogArgs;
     Database := Empty_set;
     read := fun f w => (w, inr (repeat Byte.x00 (N.to_nat (file f))));
     AnalysisLog := fun args w => (w, inr args);
     create_document :=
       fun _ _ w => (w, inl (OtherError (py "Database not available")));
     import_db := fun w => (w, inr None);
     db_name := fun db => match db with end;
     list_collection_names := fun db => match db with end;
     getenv := fun _ _ => None |}.

(** An in-memory store: the world is the list of documents written so
    far, and the environment names the database. *)
Definition memory_store : Runtime :=
  {| World := list AnalysisLogArgs;
     LogDoc := AnalysisLogArgs;
     Database := unit;
     read := fun f w => (w, inr (repeat Byte.x00 (N.to_nat (file f))));
     AnalysisLog := fun args w => (w, inr args);
     create_document := fun _ log w => (w ++ [log], inr (py "1"));
     import_db := fun w => (w, inr (Some tt));
     db_name := fun _ => Some (py "pashu");
     list_collection_names := fun _ w => (w, inr [py "analysislog"]);
     getenv := fun key _ =>
       if PyStr.eqb key (py "DATABASE_NAME") then Some (py "pashu") else None |}.

(** A store whose upload streams cannot be read. *)
Definition broken_upload : Runtime :=
  {| World := unit;
     LogDoc := AnalysisLogArgs;
     Database := unit;
     read := fun _ w => (w, inl (OtherError (py "I/O operation on closed file")));
     AnalysisLog := fun args w => (w, inr args);
     create_document := fun _ _ w => (w, inr (py "1"));
     import_db := fun w => (w, inl (ImportError (py "cannot import name 'db'")));
     db_name := fun _ => None;
     list_collection_names := fun _ w => (w, inl (OtherError (py "timed out")));
     getenv := fun _ _ => Some [] |}.

(** Their states before the first request. *)
Definition no_store_idle : State no_store := mkState no_store tt [].
Definition memory_store_idle : State memory_store := mkState memory_store [] [].
Definition broken_upload_idle : State broken_upload := mkState broken_upload tt [].

Definition cow_upload : UploadFile :=
  mkUploadFile (py "Brown_COW.JPG") (Some (py "image/jpeg")) 3.

Definition cobra_upload : UploadFile :=
  mkUploadFile (py "King-Cobra.png") (Some (py "image/png")) 5.

Definition rat_upload : UploadFile :=
  mkUploadFile (py "rat.png") None 0.

Definition random_upload : UploadFile :=
  mkUploadFile (py "random.jpg") (Some (py "image/jpeg")) 2.

(* ================================================================== *)
(** ** The logging block, step by step *)

(** The [sizes=[len(await f.read()) for f in files]] argument. *)
Definition read_sizes (rt : Runtime) (files : list UploadFile) : M rt (list nat) :=
  comprehension
    (fun f => (data <- call (EvRead f) (read rt f) ;; ret (List.length data))%py)
    files.

(** What one file contributes to [sizes]: the length of what some read of
    that file returned. *)
Definition size_of_read (rt : Runtime) (f : UploadFile) (n : nat) : Prop :=
  exists w w' data, read rt f w = (w', inr data) /\ n = List.length data.

(** The constructor call and the write that follow once the keyword
    arguments are evaluated. *)
Definition write_entry (rt : Runtime) (args : AnalysisLogArgs) : M rt unit :=
  (log <- call (EvAnalysisLog (log_module args)) (AnalysisLog rt args) ;;
   _ <- call (EvCreateDocument (py "analysislog"))
          (create_document rt (py "analysislog") log) ;;
   ret tt)%py.

(** The module name each route puts in its payload and in its log entry. *)
Definition module_name (r : route) : str :=
  match r with
  | ApiClassify => py "classifier"
  | ApiSnake => py "snake"
  | ApiEmotion => py "emotion"
  end.

(** The keys of the [meta] dict of each route, in insertion order. *)
Definition meta_keys (r : route) : list str :=
  match r with
  | ApiSnake => [py "filename"; py "content_type"; py "danger"; py "files_count"]
  | _ => [py "filename"; py "content_type"; py "files_count"]
  end.

(** The top confidence exceeds the other confidences taken together. *)
Definition dominant (ps : list Prediction) : bool :=
  match ps with
  | [] => false
  | top :: others => PrimFloat.ltb (sum_confidences others) (confidence top)
  end.

(** Adjacent confidences strictly decrease. *)
Fixpoint strictly_descending (ps : list Prediction) : bool :=
  match ps with
  | [] => true
  | p :: rest =>
      match rest with
      | [] => true
      | q :: _ =>
          PrimFloat.ltb (confidence q) (confidence p) && strictly_descending rest
      end
  end.

(** The reads of a run of files all return: [reads_return rt files w sizes
    w'] follows the world from read to read and collects the length of
    what each read returned. *)
Inductive reads_return (rt : Runtime)
  : list UploadFile -> World rt -> list nat -> World rt -> Prop :=
| reads_return_nil (w : World rt) : reads_return rt [] w [] w
| reads_return_cons (f : UploadFile) (fs : list UploadFile)
    (w w1 w2 : World rt) (data : list Byte.byte) (sizes : list nat) :
    read rt f w = (w1, inr data) ->
    reads_return rt fs w1 sizes w2 ->
    reads_return rt (f :: fs) w (List.length data :: sizes) w2.

(* ================================================================== *)
(** ** The routes as FastAPI serves them *)

(** What a client of a POST route receives.  Each route declares
    [files: List[UploadFile] = File(...)], a required form field: FastAPI
    validates the form before it calls the function, and a form with no
    part named [files] fails that validation with status 422, the
    function body never running.  Otherwise the body runs on the parts
    and its outcome is sent as [respond] says. *)
Inductive reply :=
| Unprocessable
| Replied (r : Response PredictionResponse).

Definition reply_status (x : reply) : Z :=
  match x with
  | Unprocessable => 422
  | Replied r => status r
  end.

Definition post (lower : str -> str) (rt : Runtime) (r : route)
    (parts : list UploadFile) (st : State rt) : State rt * reply :=
  match parts with
  | [] => (st, Unprocessable)
  | _ :: _ =>
      let (st', o) := handler lower rt r parts st in
      (st', Replied (respond o))
  end.

(* ================================================================== *)
(** * Properties *)

(** ** Strings and the monad *)

Lemma pystr_eqb_refl (a : str) : PyStr.eqb a a = true.
Proof.
  induction a as [|x a IH]; simpl; [reflexivity|].
  now rewrite N.eqb_refl, IH.
Qed.

Lemma pystr_eqb_eq (a b : str) : PyStr.eqb a b = true <-> a = b.
Proof.
  split.
  - revert b; induction a as [|x a IH]; intros [|y b]; simpl; try discriminate.
    + reflexivity.
    + intros H; apply andb_true_iff in H as [Hx Hab].
      apply N.eqb_eq in Hx; apply IH in Hab; now subst.
  - intros ->; apply pystr_eqb_refl.
Qed.

Lemma any_in_cons (k : str) (ks : list str) (name : str) :
  any_in (k :: ks) name = (contains k name || any_in ks name)%bool.
Proof. reflexivity. Qed.

Lemma any_in_here (k : str) (ks : list str) (name : str) :
  contains k name = true -> any_in (k :: ks) name = true.
Proof. intros H; rewrite any_in_cons, H; reflexivity. Qed.

Lemma any_in_spec (ks : list str) (name : str) :
  any_in ks name = true <-> exists k, In k ks /\ contains k name = true.
Proof. unfold any_in; apply existsb_exists. Qed.

(** Whatever the guarded block does, control reaches the statement after
    the [try]. *)
Lemma try_except_pass_returns (rt : Runtime) (body : M rt unit) (st : State rt) :
  snd (try_except_pass body st) = Return tt.
Proof. unfold try_except_pass; destruct (body st); reflexivity. Qed.

Lemma best_effort_then_return (rt : Runtime) (A : Type) (body : M rt unit) (a : A)
    (st : State rt) :
  (try_except_pass body ;;; ret a)%py st = (fst (body st), Return a).
Proof.
  unfold bind, try_except_pass, ret; destruct (body st); reflexivity.
Qed.

(** ** The payload of a successful request *)

Lemma handler_run (lower : str -> str) (rt : Runtime) (r : route)
    (first : UploadFile) (rest : list UploadFile) (st : State rt) :
  let files := first :: rest in
  let payload := composed lower r first (List.length files) in
  handler lower rt r files st
  = (fst (log_analysis rt (module payload) files payload st), Return payload).
Proof.
  destruct r; cbv zeta; unfold handler, classify, snake, emotion;
    rewrite best_effort_then_return; reflexivity.
Qed.

Lemma handler_returns (lower : str -> str) (rt : Runtime) (r : route)
    (first : UploadFile) (rest : list UploadFile) (st : State rt) :
  snd (handler lower rt r (first :: rest) st)
  = Return (composed lower r first (S (List.length rest))).
Proof. rewrite handler_run; reflexivity. Qed.

Lemma classify_returns (lower : str -> str) (rt : Runtime)
    (first : UploadFile) (rest : list UploadFile) (st : State rt) :
  snd (classify lower rt (first :: rest) st)
  = Return (composed lower ApiClassify first (S (List.length rest))).
Proof. exact (handler_returns lower rt ApiClassify first rest st). Qed.

Lemma snake_returns (lower : str -> str) (rt : Runtime)
    (first : UploadFile) (rest : list UploadFile) (st : State rt) :
  snd (snake lower rt (first :: rest) st)
  = Return (composed lower ApiSnake first (S (List.length rest))).
Proof. exact (handler_returns lower rt ApiSnake first rest st). Qed.

Lemma emotion_returns (lower : str -> str) (rt : Runtime)
    (first : UploadFile) (rest : list UploadFile) (st : State rt) :
  snd (emotion lower rt (first :: rest) st)
  = Return (composed lower ApiEmotion first (S (List.length rest))).
Proof. exact (handler_returns lower rt ApiEmotion first rest st). Qed.

(** ** The reference modules *)

(** C3: for every file name, each of the three reference modules returns
    a non-empty list of predictions, every confidence lies in [0,1], and
    the confidences are in descending order. *)
Theorem predictions_nonempty_bounded_descending :
  forall (lower : str -> str) (r : route) (filename : str),
    let ps := reference_module lower r filename in
    ps <> []
    /\ forallb (fun p => in_unit_interval (confidence p)) ps = true
    /\ descending ps = true.
Proof.
  intros lower r filename; cbv zeta.
  destruct r; unfold reference_module, _mock_classifier_labels,
    _mock_snake_assessment, _mock_emotion; cbv zeta;
    generalize (lower filename); intros name;
    repeat match goal with
           | |- context [any_in ?ks name] => destruct (any_in ks name)
           end;
    cbv beta iota;
    (split; [discriminate | split; vm_compute; reflexivity]).
Qed.

(** C4, as amended: for every file name, each reference module returns
    exactly 3 predictions, and the sum of their confidences lies between
    0.93 and 1.0, both included. *)
Theorem three_predictions_summing_near_one :
  forall (lower : str -> str) (r : route) (filename : str),
    let ps := reference_module lower r filename in
    List.length ps = 3 /\ approximately_one ps = true.
Proof.
  intros lower r filename; cbv zeta.
  destruct r; unfold reference_module, _mock_classifier_labels,
    _mock_snake_assessment, _mock_emotion; cbv zeta;
    generalize (lower filename); intros name;
    repeat match goal with
           | |- context [any_in ?ks name] => destruct (any_in ks name)
           end;
    cbv beta iota;
    (split; [reflexivity | vm_compute; reflexivity]).
Qed.

(** C4, as stated, fails: for the file name "cow.jpg" the classifier's
    three confidences 0.92, 0.05 and 0.03 add up to exactly 1.0. *)
Lemma cow_confidences_sum_to_exactly_one :
  ~ (List.length (reference_module ascii_lower ApiClassify (py "cow.jpg")) = 3
     /\ approximately_one (reference_module ascii_lower ApiClassify (py "cow.jpg")) = true
     /\ not_exactly_one (reference_module ascii_lower ApiClassify (py "cow.jpg")) = true).
Proof.
  intros (_ & _ & H); vm_compute in H; discriminate H.
Qed.

(** The sums the heuristics can produce: only the non-venomous snake
    branch and the default emotion branch miss 1.0. *)
Lemma sums_by_branch :
  map (fun '(r, name) => sum_confidences (reference_module ascii_lower r (py name)))
      [ (ApiClassify, "cow"); (ApiClassify, "dog"); (ApiClassify, "cat");
        (ApiClassify, "emu"); (ApiSnake, "viper"); (ApiSnake, "rat");
        (ApiEmotion, "happy"); (ApiEmotion, "hiss"); (ApiEmotion, "random") ]%string
  = [ 1; 1; 1; 1; 1; 0.93999999999999995; 1; 1; 0.99999999999999989 ]%float.
Proof. vm_compute; reflexivity. Qed.

(** ** Scenarios of the reference modules, seen through the endpoints *)

(** C5: whenever the lowered name of the first file contains "cow",
    [/api/classify] answers 200 and the first prediction of the payload is
    exactly [{label: "Cow", confidence: 0.92}]. *)
Theorem classify_cow_top_prediction :
  forall (lower : str -> str) (rt : Runtime) (st : State rt)
         (first : UploadFile) (rest : list UploadFile),
    contains (py "cow") (lower (filename first)) = true ->
    exists payload,
      respond (snd (classify lower rt (first :: rest) st)) = mkResponse 200 (Json payload)
      /\ top_prediction payload = Some (mkPrediction (py "Cow") 0.92).
Proof.
  intros lower rt st first rest Hcow.
  rewrite classify_returns.
  eexists; split; [reflexivity|].
  unfold top_prediction, composed, reference_module, _mock_classifier_labels.
  cbv zeta; rewrite (any_in_here _ _ _ Hcow); reflexivity.
Qed.

Lemma classify_cow_top_prediction_witness :
  contains (py "cow") (ascii_lower (filename cow_upload)) = true
  /\ exists payload,
       respond (snd (classify ascii_lower no_store [cow_upload; rat_upload] no_store_idle))
       = mkResponse 200 (Json payload)
       /\ top_prediction payload = Some (mkPrediction (py "Cow") 0.92).
Proof.
  split; [reflexivity|].
  apply (classify_cow_top_prediction ascii_lower no_store no_store_idle
           cow_upload [rat_upload]); reflexivity.
Defined.

(** C6: on [/api/snake], a venom keyword ("cobra", "viper" or "krait") in
    the lowered name of the first file gives the top label "Venomous Snake"
    and [meta.danger] "Dangerous"; no venom keyword gives "Non-venomous
    Snake" and "Generally Safe"; [meta.danger] is always one of the two
    values and is "Dangerous" exactly when the top label is "Venomous
    Snake". *)
Theorem snake_danger_follows_top_label :
  forall (lower : str -> str) (rt : Runtime) (st : State rt)
         (first : UploadFile) (rest : list UploadFile),
    let keywords := [py "cobra"; py "viper"; py "krait"] in
    let name := lower (filename first) in
    exists payload top danger,
      respond (snd (snake lower rt (first :: rest) st)) = mkResponse 200 (Json payload)
      /\ top_prediction payload = Some top
      /\ dict_get (py "danger") (meta payload) = Some (VStr danger)
      /\ ((exists k, In k keywords /\ contains k name = true) ->
          label top = py "Venomous Snake" /\ danger = py "Dangerous")
      /\ ((forall k, In k keywords -> contains k name = false) ->
          label top = py "Non-venomous Snake" /\ danger = py "Generally Safe")
      /\ (danger = py "Dangerous" \/ danger = py "Generally Safe")
      /\ (danger = py "Dangerous" <-> label top = py "Venomous Snake").
Proof.
  intros lower rt st first rest keywords name.
  rewrite snake_returns.
  unfold composed, reference_module, _mock_snake_assessment; cbv zeta.
  fold name; fold keywords.
  destruct (any_in keywords name) eqn:Hvenom.
  - do 3 eexists.
    split; [reflexivity|]. split; [reflexivity|]. split; [reflexivity|].
    split; [intros _; split; reflexivity|].
    split.
    { intros Hnone; exfalso.
      apply any_in_spec in Hvenom as (k & Hk & Hin).
      rewrite (Hnone k Hk) in Hin; discriminate. }
    split; [left; reflexivity|].
    split; intros _; reflexivity.
  - do 3 eexists.
    split; [reflexivity|]. split; [reflexivity|]. split; [reflexivity|].
    assert (Hno : ~ exists k, In k keywords /\ contains k name = true).
    { intros Hex; apply any_in_spec in Hex; congruence. }
    split; [intros Hex; contradiction|].
    split; [intros _; split; reflexivity|].
    split; [right; reflexivity|].
    split; intros H; vm_compute in H; discriminate H.
Qed.

Lemma snake_danger_follows_top_label_witness :
  (exists payload,
     respond (snd (snake ascii_lower no_store [cobra_upload] no_store_idle))
     = mkResponse 200 (Json payload)
     /\ option_map label (top_prediction payload) = Some (py "Venomous Snake")
     /\ dict_get (py "danger") (meta payload) = Some (VStr (py "Dangerous")))
  /\ (exists payload,
        respond (snd (snake ascii_lower no_store [rat_upload; cow_upload] no_store_idle))
        = mkResponse 200 (Json payload)
        /\ option_map label (top_prediction payload) = Some (py "Non-venomous Snake")
        /\ dict_get (py "danger") (meta payload) = Some (VStr (py "Generally Safe"))).
Proof.
  split.
  - destruct (snake_danger_follows_top_label ascii_lower no_store no_store_idle
                cobra_upload [])
      as (payload & top & danger & Hresp & Htop & Hdanger & Hvenom & _).
    destruct Hvenom as [Hlabel Hd].
    { exists (py "cobra"); split; [left; reflexivity | reflexivity]. }
    exists payload; rewrite Htop, Hdanger, Hd; simpl; rewrite Hlabel; auto.
  - destruct (snake_danger_follows_top_label ascii_lower no_store no_store_idle
                rat_upload [cow_upload])
      as (payload & top & danger & Hresp & Htop & Hdanger & _ & Hsafe & _).
    destruct Hsafe as [Hlabel Hd].
    { intros k [<-|[<-|[<-|[]]]]; reflexivity. }
    exists payload; rewrite Htop, Hdanger, Hd; simpl; rewrite Hlabel; auto.
Defined.

(** C7: whenever the lowered name of the first file matches no emotion
    keyword, [/api/emotion] answers 200 and the first prediction of the
    payload is exactly [{label: "Neutral", confidence: 0.70}]. *)
Theorem emotion_default_top_prediction :
  forall (lower : str -> str) (rt : Runtime) (st : State rt)
         (first : UploadFile) (rest : list UploadFile),
    (forall k, In k [py "happy"; py "smile"; py "angry"; py "growl"; py "hiss"] ->
               contains k (lower (filename first)) = false) ->
    exists payload,
      respond (snd (emotion lower rt (first :: rest) st)) = mkResponse 200 (Json payload)
      /\ top_prediction payload = Some (mkPrediction (py "Neutral") 0.70).
Proof.
  intros lower rt st first rest Hnone.
  rewrite emotion_returns.
  eexists; split; [reflexivity|].
  unfold top_prediction, composed, reference_module, _mock_emotion; cbv zeta.
  rewrite !any_in_cons.
  rewrite !Hnone by (simpl; auto 10).
  reflexivity.
Qed.

Lemma emotion_default_top_prediction_witness :
  (forall k, In k [py "happy"; py "smile"; py "angry"; py "growl"; py "hiss"] ->
             contains k (ascii_lower (filename random_upload)) = false)
  /\ exists payload,
       respond (snd (emotion ascii_lower memory_store [random_upload] memory_store_idle))
       = mkResponse 200 (Json payload)
       /\ top_prediction payload = Some (mkPrediction (py "Neutral") 0.70).
Proof.
  assert (H : forall k,
             In k [py "happy"; py "smile"; py "angry"; py "growl"; py "hiss"] ->
             contains k (ascii_lower (filename random_upload)) = false).
  { intros k [<-|[<-|[<-|[<-|[<-|[]]]]]]; reflexivity. }
  split; [exact H|].
  apply (emotion_default_top_prediction ascii_lower memory_store memory_store_idle
           random_upload [] H).
Defined.

(** C8: every successful classify/snake/emotion response carries in its
    meta the file name and the content type of the first file of the
    batch, and a files count equal to the length of the batch. *)
Theorem meta_describes_first_file_and_count :
  forall (lower : str -> str) (rt : Runtime) (r : route) (st : State rt)
         (first : UploadFile) (rest : list UploadFile),
    exists payload,
      respond (snd (handler lower rt r (first :: rest) st)) = mkResponse 200 (Json payload)
      /\ dict_get (py "filename") (meta payload) = Some (VStr (filename first))
      /\ dict_get (py "content_type") (meta payload)
         = Some (value_of_optional (content_type first))
      /\ dict_get (py "files_count") (meta payload)
         = Some (VInt (Z.of_nat (List.length (first :: rest)))).
Proof.
  intros lower rt r st first rest.
  rewrite handler_returns.
  eexists; split; [reflexivity|].
  destruct r; repeat split; reflexivity.
Qed.

(** ** The empty batch *)

(** The guard of the three functions: called on an empty list, each
    raises [HTTPException(400, "No files uploaded")] before anything
    else; nothing is returned and the state comes back as it went in. *)
Lemma empty_batch_rejected :
  forall (lower : str -> str) (rt : Runtime) (r : route) (st : State rt),
    handler lower rt r [] st = (st, Raise (HTTPException 400 (py "No files uploaded")))
    /\ respond (snd (handler lower rt r [] st))
       = mkResponse 400 (Detail (py "No files uploaded")).
Proof.
  intros lower rt r st; destruct r; split; reflexivity.
Qed.

(** C2, where the code departs from it: a request without files is
    answered 422 by the validation of the required [files] field, on all
    three routes and with the state untouched, so the status is not 400;
    the guard that would answer 400 "No files uploaded" is in the function
    body, which such a request never reaches. *)
Theorem empty_form_never_reaches_the_guard :
  forall (lower : str -> str) (rt : Runtime) (r : route) (st : State rt),
    post lower rt r [] st = (st, Unprocessable)
    /\ reply_status (snd (post lower rt r [] st)) = 422%Z
    /\ reply_status (snd (post lower rt r [] st)) <> 400%Z
    /\ respond (snd (handler lower rt r [] st))
       = mkResponse 400 (Detail (py "No files uploaded")).
Proof.
  intros lower rt r st.
  split; [reflexivity|]. split; [reflexivity|]. split; [discriminate|].
  apply empty_batch_rejected.
Qed.

(** With at least one file the route is its function: the client gets
    what the function's outcome is sent as. *)
Lemma post_with_files (lower : str -> str) (rt : Runtime) (r : route)
    (first : UploadFile) (rest : list UploadFile) (st : State rt) :
  post lower rt r (first :: rest) st
  = (fst (handler lower rt r (first :: rest) st),
     Replied (respond (snd (handler lower rt r (first :: rest) st)))).
Proof.
  unfold post; destruct (handler lower rt r (first :: rest) st); reflexivity.
Qed.

(** ** Best-effort logging *)

(** Without a store the write raises after the entry has been built; the
    three calls are on the trace. *)
Example audit_raises_without_store :
  log_analysis no_store (py "classifier") [cow_upload]
    (composed ascii_lower ApiClassify cow_upload 1) no_store_idle
  = (mkState no_store tt
       [EvRead cow_upload; EvAnalysisLog (py "classifier");
        EvCreateDocument (py "analysislog")],
     Raise (Failure (OtherError (py "Database not available")))).
Proof. reflexivity. Qed.

(** An unreadable upload raises while the entry is being built. *)
Example audit_raises_on_unreadable_upload :
  log_analysis broken_upload (py "snake") [cobra_upload; rat_upload]
    (composed ascii_lower ApiSnake cobra_upload 2) broken_upload_idle
  = (mkState broken_upload tt [EvRead cobra_upload],
     Raise (Failure (OtherError (py "I/O operation on closed file")))).
Proof. reflexivity. Qed.

(** With the in-memory store the entry is written, sizes aligned with the
    files. *)
Example audit_writes_to_memory_store :
  let payload := composed ascii_lower ApiEmotion random_upload 2 in
  log_analysis memory_store (py "emotion") [random_upload; cow_upload] payload
    memory_store_idle
  = (mkState memory_store
       [ mkAnalysisLogArgs (py "emotion") [py "random.jpg"; py "Brown_COW.JPG"]
           [Some (py "image/jpeg"); Some (py "image/jpeg")] [2; 3] payload ]
       [EvRead random_upload; EvRead cow_upload; EvAnalysisLog (py "emotion");
        EvCreateDocument (py "analysislog")],
     Return tt).
Proof. reflexivity. Qed.

(** All the effects of a successful request are those of the logging
    block, which runs on the payload that is going to be returned. *)
Lemma effects_are_those_of_logging (lower : str -> str) (rt : Runtime) (r : route)
    (first : UploadFile) (rest : list UploadFile) (st : State rt) :
  exists payload,
    snd (handler lower rt r (first :: rest) st) = Return payload
    /\ fst (handler lower rt r (first :: rest) st)
       = fst (log_analysis rt (module payload) (first :: rest) payload st).
Proof.
  eexists; rewrite handler_run; split; reflexivity.
Qed.

(** C1: for a non-empty batch the response of each endpoint is the same
    whether the audit-log write fails or succeeds: whatever the upload
    streams, the [AnalysisLog] constructor and [create_document] do in
    one deployment and in another, the two responses agree in status and
    payload, and the status is 200. *)
Theorem audit_failure_leaves_response_unchanged :
  forall (lower : str -> str) (r : route)
         (first : UploadFile) (rest : list UploadFile)
         (rt_fail : Runtime) (st_fail : State rt_fail)
         (rt_ok : Runtime) (st_ok : State rt_ok),
    let files := first :: rest in
    respond (snd (handler lower rt_fail r files st_fail))
    = respond (snd (handler lower rt_ok r files st_ok))
    /\ exists payload,
         respond (snd (handler lower rt_fail r files st_fail))
         = mkResponse 200 (Json payload).
Proof.
  intros lower r first rest rt_fail st_fail rt_ok st_ok files; subst files.
  rewrite !handler_returns; split; [reflexivity | eexists; reflexivity].
Qed.

Lemma audit_failure_leaves_response_unchanged_witness :
  let files := [cow_upload; rat_upload] in
  let payload := composed ascii_lower ApiClassify cow_upload 2 in
  snd (log_analysis no_store (py "classifier") files payload no_store_idle)
  = Raise (Failure (OtherError (py "Database not available")))
  /\ snd (log_analysis memory_store (py "classifier") files payload memory_store_idle)
     = Return tt
  /\ respond (snd (handler ascii_lower no_store ApiClassify files no_store_idle))
     = respond (snd (handler ascii_lower memory_store ApiClassify files
                       memory_store_idle)).
Proof.
  cbv zeta.
  split; [reflexivity|]. split; [reflexivity|].
  apply (proj1 (audit_failure_leaves_response_unchanged ascii_lower ApiClassify
                  cow_upload [rat_upload] no_store no_store_idle
                  memory_store memory_store_idle)).
Defined.

(** ** Determinism *)

(** C10: the response to a non-empty batch depends only on the name and
    content type of the first file and on the number of files: two
    requests that agree on these three get the same response, whatever
    the other files, the bytes behind any file, and the state and
    behaviour of the store.  The files are read inside the logging block
    only, which is handed the payload the request returns. *)
Theorem response_depends_on_first_file_and_count :
  forall (lower : str -> str) (r : route)
         (rt1 : Runtime) (st1 : State rt1) (rt2 : Runtime) (st2 : State rt2)
         (first1 first2 : UploadFile) (rest1 rest2 : list UploadFile),
    filename first1 = filename first2 ->
    content_type first1 = content_type first2 ->
    List.length (first1 :: rest1) = List.length (first2 :: rest2) ->
    respond (snd (handler lower rt1 r (first1 :: rest1) st1))
    = respond (snd (handler lower rt2 r (first2 :: rest2) st2))
    /\ exists payload,
         snd (handler lower rt1 r (first1 :: rest1) st1) = Return payload
         /\ fst (handler lower rt1 r (first1 :: rest1) st1)
            = fst (log_analysis rt1 (module payload) (first1 :: rest1) payload st1).
Proof.
  intros lower r rt1 st1 rt2 st2 first1 first2 rest1 rest2 Hname Htype Hlen.
  split; [|apply effects_are_those_of_logging].
  rewrite !handler_returns.
  simpl in Hlen; injection Hlen as Hlen; rewrite Hlen.
  unfold composed; rewrite Hname, Htype; reflexivity.
Qed.

Lemma response_depends_on_first_file_and_count_witness :
  let first1 := mkUploadFile (py "King-Cobra.png") (Some (py "image/png")) 5 in
  let first2 := mkUploadFile (py "King-Cobra.png") (Some (py "image/png")) 4096 in
  filename first1 = filename first2
  /\ content_type first1 = content_type first2
  /\ List.length [first1; rat_upload] = List.length [first2; cow_upload]
  /\ respond (snd (handler ascii_lower no_store ApiSnake [first1; rat_upload]
                     no_store_idle))
     = respond (snd (handler ascii_lower memory_store ApiSnake [first2; cow_upload]
                       memory_store_idle)).
Proof.
  cbv zeta.
  split; [reflexivity|]. split; [reflexivity|]. split; [reflexivity|].
  apply (proj1 (response_depends_on_first_file_and_count ascii_lower ApiSnake
           no_store no_store_idle memory_store memory_store_idle
           (mkUploadFile (py "King-Cobra.png") (Some (py "image/png")) 5)
           (mkUploadFile (py "King-Cobra.png") (Some (py "image/png")) 4096)
           [rat_upload] [cow_upload] eq_refl eq_refl eq_refl)).
Defined.

(** ** The health endpoint *)

Lemma env_flag_is_text (rt : Runtime) (key : str) (w : World rt) :
  exists text, env_flag rt key w = VStr text.
Proof.
  unfold env_flag; destruct (getenv rt key w) as [v|];
    [destruct (truthy v)|]; eexists; reflexivity.
Qed.

Ltac run_test_database :=
  unfold test_database, invoke;
  repeat match goal with
         | |- context [import_db ?rt ?w] =>
             destruct (import_db rt w) as [? [[?|?]|[?|]]]
         | |- context [list_collection_names ?rt ?db ?w] =>
             destruct (list_collection_names rt db w) as [? [?|?]]
         end.

(** C9: whatever the store does, [/test] returns a report, sent with
    status 200, in which all six documented fields are present,
    [collections] holds at most 10 names and [database] holds a non-empty
    text.  Each condition of the store is told by that text: a missing
    database module, an import that raises (with the first 50 characters
    of the message), a handle that is [None], a listing that raises (again
    with the first 50 characters), a listing that answers; the connection
    status is "Connected" exactly when there is a handle, and collection
    names are reported only for a listing that answered. *)
Theorem test_database_always_reports :
  forall (rt : Runtime) (st : State rt),
    exists st' report,
      test_database rt st = (st', Return report)
      /\ respond (snd (test_database rt st)) = mkResponse 200 (Json report)
      /\ forallb (fun k => has_key k report) documented_fields = true
      /\ (exists names,
            dict_get (py "collections") report = Some (VList names)
            /\ List.length names <= 10)
      /\ (exists text,
            dict_get (py "database") report = Some (VStr text) /\ text <> [])
      /\ match import_db rt (world st) with
         | (_, inl (ImportError _)) =>
             dict_get (py "database") report
             = Some (VStr (CROSS_MARK
                           ++ py " Database module not found (run enable-database first)"))
             /\ dict_get (py "connection_status") report
                = Some (VStr (py "Not Connected"))
             /\ dict_get (py "collections") report = Some (VList [])
         | (_, inl (OtherError msg)) =>
             dict_get (py "database") report
             = Some (VStr (CROSS_MARK ++ py " Error: " ++ slice_to 50 msg))
             /\ dict_get (py "connection_status") report
                = Some (VStr (py "Not Connected"))
             /\ dict_get (py "collections") report = Some (VList [])
         | (_, inr None) =>
             dict_get (py "database") report
             = Some (VStr (WARNING_SIGN ++ py "  Available but not initialized"))
             /\ dict_get (py "connection_status") report
                = Some (VStr (py "Not Connected"))
             /\ dict_get (py "collections") report = Some (VList [])
         | (w, inr (Some db)) =>
             dict_get (py "connection_status") report = Some (VStr (py "Connected"))
             /\ match list_collection_names rt db w with
                | (_, inl e) =>
                    dict_get (py "database") report
                    = Some (VStr (WARNING_SIGN ++ py "  Connected but Error: "
                                  ++ slice_to 50 (error_str e)))
                    /\ dict_get (py "collections") report = Some (VList [])
                | (_, inr names) =>
                    dict_get (py "database") report
                    = Some (VStr (CHECK_MARK ++ py " Connected & Working"))
                    /\ dict_get (py "collections") report
                       = Some (VList (firstn 10 names))
                end
         end.
Proof.
  intros rt st; unfold test_database, invoke.
  destruct (import_db rt (world st)) as [w [[msg|msg]|[db|]]]; cbn [world].
  - do 2 eexists; repeat (split; [reflexivity|]).
    split; [eexists; split; [reflexivity | simpl; lia]|].
    split; [eexists; split; [reflexivity | discriminate]|].
    repeat split.
  - do 2 eexists; repeat (split; [reflexivity|]).
    split; [eexists; split; [reflexivity | simpl; lia]|].
    split; [eexists; split; [reflexivity | discriminate]|].
    repeat split.
  - destruct (list_collection_names rt db w) as [w' [e|names]]; cbn [world].
    + do 2 eexists; repeat (split; [reflexivity|]).
      split; [eexists; split; [reflexivity | simpl; lia]|].
      split; [eexists; split; [reflexivity | discriminate]|].
      repeat split.
    + do 2 eexists; repeat (split; [reflexivity|]).
      split; [eexists; split; [reflexivity | apply firstn_le_length]|].
      split; [eexists; split; [reflexivity | discriminate]|].
      repeat split.
  - do 2 eexists; repeat (split; [reflexivity|]).
    split; [eexists; split; [reflexivity | simpl; lia]|].
    split; [eexists; split; [reflexivity | discriminate]|].
    repeat split.
Qed.

(** The health check told apart four deployments: a store that answers,
    no handle, a missing module, and a handle whose listing times out. *)
Lemma test_database_always_reports_witness :
  (exists st' report,
     test_database memory_store memory_store_idle = (st', Return report)
     /\ dict_get (py "database") report
        = Some (VStr (CHECK_MARK ++ py " Connected & Working"))
     /\ dict_get (py "collections") report = Some (VList [py "analysislog"]))
  /\ (exists st' report,
        test_database no_store no_store_idle = (st', Return report)
        /\ dict_get (py "database") report
           = Some (VStr (WARNING_SIGN ++ py "  Available but not initialized")))
  /\ (exists st' report,
        test_database broken_upload broken_upload_idle = (st', Return report)
        /\ dict_get (py "database") report
           = Some (VStr (CROSS_MARK
                         ++ py " Database module not found (run enable-database first)"))).
Proof.
  split; [|split].
  - destruct (test_database_always_reports memory_store memory_store_idle)
      as (st' & report & Hrun & _ & _ & _ & _ & Hmode).
    exists st', report; split; [exact Hrun|].
    simpl in Hmode; destruct Hmode as (_ & Hdb & Hcoll); split; assumption.
  - destruct (test_database_always_reports no_store no_store_idle)
      as (st' & report & Hrun & _ & _ & _ & _ & Hmode).
    exists st', report; split; [exact Hrun|].
    simpl in Hmode; destruct Hmode as (Hdb & _); exact Hdb.
  - destruct (test_database_always_reports broken_upload broken_upload_idle)
      as (st' & report & Hrun & _ & _ & _ & _ & Hmode).
    exists st', report; split; [exact Hrun|].
    simpl in Hmode; destruct Hmode as (Hdb & _); exact Hdb.
Defined.

(** How each condition of the store shows in the [database] field. *)
Lemma test_database_module_missing (rt : Runtime) (st : State rt) w msg :
  import_db rt (world st) = (w, inl (ImportError msg)) ->
  exists st' report,
    test_database rt st = (st', Return report)
    /\ dict_get (py "database") report
       = Some (VStr (CROSS_MARK
                     ++ py " Database module not found (run enable-database first)"))
    /\ dict_get (py "connection_status") report = Some (VStr (py "Not Connected"))
    /\ dict_get (py "collections") report = Some (VList []).
Proof.
  intros H; unfold test_database, invoke; rewrite H.
  do 2 eexists; repeat split.
Qed.

Lemma test_database_import_error (rt : Runtime) (st : State rt) w msg :
  import_db rt (world st) = (w, inl (OtherError msg)) ->
  exists st' report,
    test_database rt st = (st', Return report)
    /\ dict_get (py "database") report
       = Some (VStr (CROSS_MARK ++ py " Error: " ++ slice_to 50 msg))
    /\ dict_get (py "connection_status") report = Some (VStr (py "Not Connected"))
    /\ dict_get (py "collections") report = Some (VList []).
Proof.
  intros H; unfold test_database, invoke; rewrite H.
  do 2 eexists; repeat split.
Qed.

Lemma test_database_not_initialised (rt : Runtime) (st : State rt) w :
  import_db rt (world st) = (w, inr None) ->
  exists st' report,
    test_database rt st = (st', Return report)
    /\ dict_get (py "database") report
       = Some (VStr (WARNING_SIGN ++ py "  Available but not initialized"))
    /\ dict_get (py "connection_status") report = Some (VStr (py "Not Connected"))
    /\ dict_get (py "collections") report = Some (VList []).
Proof.
  intros H; unfold test_database, invoke; rewrite H.
  do 2 eexists; repeat split.
Qed.

Lemma test_database_listing_error (rt : Runtime) (st : State rt) w db w' e :
  import_db rt (world st) = (w, inr (Some db)) ->
  list_collection_names rt db w = (w', inl e) ->
  exists st' report,
    test_database rt st = (st', Return report)
    /\ dict_get (py "database") report
       = Some (VStr (WARNING_SIGN ++ py "  Connected but Error: "
                     ++ slice_to 50 (error_str e)))
    /\ dict_get (py "connection_status") report = Some (VStr (py "Connected"))
    /\ dict_get (py "collections") report = Some (VList []).
Proof.
  intros H H'; unfold test_database, invoke; rewrite H; simpl world; rewrite H'.
  do 2 eexists; repeat split.
Qed.

Lemma test_database_reachable (rt : Runtime) (st : State rt) w db w' names :
  import_db rt (world st) = (w, inr (Some db)) ->
  list_collection_names rt db w = (w', inr names) ->
  exists st' report,
    test_database rt st = (st', Return report)
    /\ dict_get (py "database") report
       = Some (VStr (CHECK_MARK ++ py " Connected & Working"))
    /\ dict_get (py "connection_status") report = Some (VStr (py "Connected"))
    /\ dict_get (py "collections") report = Some (VList (firstn 10 names)).
Proof.
  intros H H'; unfold test_database, invoke; rewrite H; simpl world; rewrite H'.
  do 2 eexists; repeat split.
Qed.

Example test_database_without_store :
  snd (test_database no_store no_store_idle)
  = Return
      [ (py "backend", VStr (CHECK_MARK ++ py " Running"));
        (py "database", VStr (WARNING_SIGN ++ py "  Available but not initialized"));
        (py "database_url", VStr (CROSS_MARK ++ py " Not Set"));
        (py "database_name", VStr (CROSS_MARK ++ py " Not Set"));
        (py "connection_status", VStr (py "Not Connected"));
        (py "collections", VList []) ].
Proof. reflexivity. Qed.

Example test_database_with_memory_store :
  snd (test_database memory_store memory_store_idle)
  = Return
      [ (py "backend", VStr (CHECK_MARK ++ py " Running"));
        (py "database", VStr (CHECK_MARK ++ py " Connected & Working"));
        (py "database_url", VStr (CROSS_MARK ++ py " Not Set"));
        (py "database_name", VStr (CHECK_MARK ++ py " Set"));
        (py "connection_status", VStr (py "Connected"));
        (py "collections", VList [py "analysislog"]) ].
Proof. reflexivity. Qed.

(* ================================================================== *)
(** * Further properties *)

(** ** Keyword matching *)

Lemma startswith_spec (p s : str) :
  startswith p s = true <-> exists post, s = p ++ post.
Proof.
  revert s; induction p as [|x p IH]; intros s; simpl.
  - split; [intros _; exists s; reflexivity | reflexivity].
  - destruct s as [|y s].
    + split; [discriminate | intros [post H]; discriminate H].
    + rewrite andb_true_iff, N.eqb_eq, IH; split.
      * intros [-> [post ->]]; exists post; reflexivity.
      * intros [post H]; injection H as -> ->; split; [reflexivity | eauto].
Qed.

(** [k in s] is substring containment: it holds exactly when [s] splits
    into a prefix, [k] and a suffix. *)
Theorem contains_spec (k s : str) :
  contains k s = true <-> exists pre post, s = pre ++ k ++ post.
Proof.
  induction s as [|y s IH].
  - simpl; rewrite orb_false_r, startswith_spec; split.
    + intros [post H]; exists [], post; exact H.
    + intros (pre & post & H).
      destruct pre; [exists post; exact H | discriminate H].
  - simpl; rewrite orb_true_iff, startswith_spec, IH; split.
    + intros [[post H] | (pre & post & H)].
      * exists [], post; exact H.
      * exists (y :: pre), post; rewrite H; reflexivity.
    + intros (pre & post & H); destruct pre as [|z pre].
      * left; exists post; exact H.
      * right; injection H as _ H; exists pre, post; exact H.
Qed.

Lemma contains_shorter_keyword (k more s : str) :
  contains (k ++ more) s = true -> contains k s = true.
Proof.
  rewrite !contains_spec; intros (pre & post & ->).
  exists pre, (more ++ post); rewrite <- app_assoc; reflexivity.
Qed.

(** X1: a keyword list matches a name exactly when one of its keywords
    occurs somewhere in the name, at any position. *)
Theorem any_in_is_substring_search :
  forall (keys : list str) (name : str),
    any_in keys name = true
    <-> exists k pre post, In k keys /\ name = pre ++ k ++ post.
Proof.
  intros keys name; rewrite any_in_spec; split.
  - intros (k & Hk & Hc); apply contains_spec in Hc as (pre & post & H); eauto.
  - intros (k & pre & post & Hk & H); exists k; split; [exact Hk|].
    apply contains_spec; eauto.
Qed.

(** ** The reference modules, beyond the ranking *)

Ltac by_branch lower filename :=
  unfold reference_module, _mock_classifier_labels, _mock_snake_assessment,
    _mock_emotion; cbv zeta;
  generalize (lower filename); intros name;
  repeat match goal with
         | |- context [any_in ?ks name] => destruct (any_in ks name)
         end;
  cbv beta iota.

(** X2: in every answer of every reference module the confidences
    strictly decrease, the top one is at least 0.6 and it exceeds the two
    others added together. *)
Theorem top_prediction_dominates :
  forall (lower : str -> str) (r : route) (filename : str),
    let ps := reference_module lower r filename in
    strictly_descending ps = true
    /\ dominant ps = true
    /\ option_map (fun top => PrimFloat.leb 0.6 (confidence top)) (hd_error ps)
       = Some true.
Proof.
  intros lower r filename; cbv zeta.
  destruct r; by_branch lower filename;
    (split; [|split]); vm_compute; reflexivity.
Qed.

Lemma labels_differ (a b : str) : PyStr.eqb a b = false -> a <> b.
Proof.
  intros H E; apply pystr_eqb_eq in E; rewrite E in H; discriminate.
Qed.

(** X3: no label occurs twice in an answer of a reference module. *)
Theorem labels_are_distinct :
  forall (lower : str -> str) (r : route) (filename : str),
    NoDup (map label (reference_module lower r filename)).
Proof.
  intros lower r filename.
  destruct r; by_branch lower filename; simpl map;
    repeat (constructor;
            [ simpl In; intros H;
              repeat (destruct H as [H|H];
                      [revert H; apply labels_differ; vm_compute; reflexivity|]);
              exact H
            | ]);
    apply NoDup_nil.
Qed.

(** X4: a name with "cattle" in it also matches the keyword "cat" of the
    third group, yet the classifier answers Cow: the groups are tried in
    the order cow, dog, cat. *)
Theorem cattle_is_not_a_cat :
  forall (lower : str -> str) (filename : str),
    contains (py "cattle") (lower filename) = true ->
    any_in [py "cat"; py "feline"] (lower filename) = true
    /\ hd_error (_mock_classifier_labels lower filename)
       = Some (mkPrediction (py "Cow") 0.92).
Proof.
  intros lower filename H; split.
  - apply any_in_here.
    apply (contains_shorter_keyword (py "cat") (py "tle")); exact H.
  - unfold _mock_classifier_labels; cbv zeta.
    rewrite any_in_cons, (any_in_here _ [py "bovine"] _ H), orb_true_r.
    reflexivity.
Qed.

Lemma cattle_is_not_a_cat_witness :
  contains (py "cattle") (ascii_lower (py "Cattle_Farm.JPG")) = true
  /\ any_in [py "cat"; py "feline"] (ascii_lower (py "Cattle_Farm.JPG")) = true
  /\ hd_error (_mock_classifier_labels ascii_lower (py "Cattle_Farm.JPG"))
     = Some (mkPrediction (py "Cow") 0.92).
Proof.
  split; [reflexivity|].
  apply (cattle_is_not_a_cat ascii_lower (py "Cattle_Farm.JPG")); reflexivity.
Defined.

(** X5: the top label of the classifier tells which keyword group
    matched: Cow for the first group; Dog for the second when the first
    did not match; Cat for the third when neither of the first two did;
    Unknown Animal when none matched. *)
Theorem classifier_top_label_decides :
  forall (lower : str -> str) (filename : str),
    let name := lower filename in
    let cow := any_in [py "cow"; py "cattle"; py "bovine"] name in
    let dog := any_in [py "dog"; py "canine"] name in
    let cat := any_in [py "cat"; py "feline"] name in
    exists top,
      hd_error (_mock_classifier_labels lower filename) = Some top
      /\ (label top = py "Cow" <-> cow = true)
      /\ (label top = py "Dog" <-> cow = false /\ dog = true)
      /\ (label top = py "Cat" <-> cow = false /\ dog = false /\ cat = true)
      /\ (label top = py "Unknown Animal"
          <-> cow = false /\ dog = false /\ cat = false).
Proof.
  intros lower filename; cbv zeta.
  unfold _mock_classifier_labels; cbv zeta.
  generalize (lower filename); intros name.
  destruct (any_in [py "cow"; py "cattle"; py "bovine"] name);
    destruct (any_in [py "dog"; py "canine"] name);
    destruct (any_in [py "cat"; py "feline"] name);
    cbv beta iota; eexists; (split; [reflexivity|]); simpl label;
    repeat split;
    try reflexivity; try discriminate;
    try (intros H; exfalso; revert H; apply labels_differ; vm_compute; reflexivity);
    try (intros (? & ?); discriminate);
    try (intros (? & ? & ?); discriminate).
Qed.

(** ** The logging block *)

Lemma log_analysis_steps (rt : Runtime) (m : str) (files : list UploadFile)
    (payload : PredictionResponse) :
  log_analysis rt m files payload
  = (sizes <- read_sizes rt files ;;
     write_entry rt
       (mkAnalysisLogArgs m (map filename files) (map content_type files)
          sizes payload))%py.
Proof. reflexivity. Qed.

Lemma read_sizes_cons (rt : Runtime) (f : UploadFile) (fs : list UploadFile)
    (st : State rt) :
  read_sizes rt (f :: fs) st
  = match read rt f (world st) with
    | (w', inl err) => (mkState rt w' (trace st ++ [EvRead f]), Raise (Failure err))
    | (w', inr data) =>
        match read_sizes rt fs (mkState rt w' (trace st ++ [EvRead f])) with
        | (st2, Return sizes) => (st2, Return (List.length data :: sizes))
        | (st2, Raise e) => (st2, Raise e)
        end
    end.
Proof.
  unfold read_sizes; simpl comprehension; unfold bind, call, invoke, ret.
  destruct (read rt f (world st)) as [w' [err|data]]; reflexivity.
Qed.

(** The files are read front to back; the first failing read ends the
    comprehension, and a completed one yields one size per file. *)
Lemma read_sizes_shape (rt : Runtime) (files : list UploadFile) :
  forall st : State rt,
    exists k,
      k <= List.length files
      /\ trace (fst (read_sizes rt files st))
         = trace st ++ map EvRead (firstn k files)
      /\ match snd (read_sizes rt files st) with
         | Return sizes =>
             k = List.length files /\ Forall2 (size_of_read rt) files sizes
         | Raise e => 0 < k /\ exists err, e = Failure err
         end.
Proof.
  induction files as [|f fs IH]; intros st.
  - exists 0; simpl; rewrite app_nil_r; repeat split; constructor.
  - rewrite read_sizes_cons.
    destruct (read rt f (world st)) as [w' [err|data]] eqn:Hread.
    + exists 1; simpl; repeat split; try lia; eauto.
    + specialize (IH (mkState rt w' (trace st ++ [EvRead f]))).
      destruct IH as (k & Hk & Htrace & Hres).
      destruct (read_sizes rt fs (mkState rt w' (trace st ++ [EvRead f])))
        as [st2 [sizes|e]]; simpl in *.
      * destruct Hres as [-> Hall]; exists (S (List.length fs)); simpl.
        rewrite Htrace, <- app_assoc; repeat split; try lia.
        constructor; [exists (world st), w', data; auto | exact Hall].
      * destruct Hres as [Hpos Herr]; exists (S k); simpl.
        rewrite Htrace, <- app_assoc; repeat split; try lia; exact Herr.
Qed.

Lemma payload_module (lower : str -> str) (r : route) (first : UploadFile) (n : nat) :
  module (composed lower r first n) = module_name r.
Proof. destruct r; reflexivity. Qed.

(** What the comprehension did, read by read: either every read returned,
    or the reads before some file returned and the read of that file
    raised, which ended the comprehension there. *)
Lemma read_sizes_outcome (rt : Runtime) (files : list UploadFile) :
  forall st : State rt,
    match read_sizes rt files st with
    | (st1, Return sizes) =>
        reads_return rt files (world st) sizes (world st1)
        /\ trace st1 = trace st ++ map EvRead files
    | (st1, Raise e) =>
        exists done f later sizes w1 err,
          files = done ++ f :: later
          /\ reads_return rt done (world st) sizes w1
          /\ read rt f w1 = (world st1, inl err)
          /\ e = Failure err
          /\ trace st1 = trace st ++ map EvRead (done ++ [f])
    end.
Proof.
  induction files as [|f fs IH]; intros st.
  - simpl; split; [constructor | rewrite app_nil_r; reflexivity].
  - rewrite read_sizes_cons.
    destruct (read rt f (world st)) as [w' [err|data]] eqn:Hread.
    + exists [], f, fs, [], (world st), err; simpl.
      repeat split; [constructor | exact Hread].
    + specialize (IH (mkState rt w' (trace st ++ [EvRead f]))).
      destruct (read_sizes rt fs (mkState rt w' (trace st ++ [EvRead f])))
        as [st2 [sizes|e]]; simpl in IH.
      * destruct IH as [Hreads Htrace]; split.
        -- econstructor; [exact Hread | exact Hreads].
        -- rewrite Htrace, <- app_assoc; reflexivity.
      * destruct IH as (done & g & later & sizes & w1 & err & -> & Hdone & Hg & -> & Htrace).
        exists (f :: done), g, later, (List.length data :: sizes), w1, err.
        repeat split; auto.
        -- econstructor; [exact Hread | exact Hdone].
        -- rewrite Htrace, <- app_assoc; reflexivity.
Qed.

(** The entry a route builds once the sizes are known. *)
Lemma handler_through_reads (lower : str -> str) (rt : Runtime) (r : route)
    (first : UploadFile) (rest : list UploadFile) (st : State rt) :
  let files := first :: rest in
  let payload := composed lower r first (List.length files) in
  fst (handler lower rt r files st)
  = match read_sizes rt files st with
    | (st1, Return sizes) =>
        fst (write_entry rt
               (mkAnalysisLogArgs (module_name r) (map filename files)
                  (map content_type files) sizes payload) st1)
    | (st1, Raise _) => st1
    end.
Proof.
  cbv zeta; rewrite handler_run; cbv zeta; unfold fst at 1.
  rewrite payload_module, log_analysis_steps; unfold bind at 1.
  destruct (read_sizes rt (first :: rest) st) as [st1 [sizes|e]]; reflexivity.
Qed.

(** X6: what leaves a handler on a request with files, outcome by
    outcome.  Either the reads of the files before some file returned and
    the read of that file raised: then exactly these files were read, front
    to back, each once, and nothing else was called.  Or the reads of all
    files returned: then all were read, front to back, the [AnalysisLog]
    entry was built once, and [create_document] was called, once and on
    the collection "analysislog", exactly when the constructor returned. *)
Theorem request_effects_in_order :
  forall (lower : str -> str) (rt : Runtime) (r : route) (st : State rt)
         (first : UploadFile) (rest : list UploadFile),
    let files := first :: rest in
    let st' := fst (handler lower rt r files st) in
    (exists done f later sizes w1 err,
        files = done ++ f :: later
        /\ reads_return rt done (world st) sizes w1
        /\ read rt f w1 = (world st', inl err)
        /\ trace st' = trace st ++ map EvRead (done ++ [f]))
    \/ (exists sizes w1,
          reads_return rt files (world st) sizes w1
          /\ match AnalysisLog rt
                    (mkAnalysisLogArgs (module_name r) (map filename files)
                       (map content_type files) sizes
                       (composed lower r first (List.length files))) w1 with
             | (w2, inl _) =>
                 world st' = w2
                 /\ trace st'
                    = trace st ++ map EvRead files ++ [EvAnalysisLog (module_name r)]
             | (w2, inr log) =>
                 world st' = fst (create_document rt (py "analysislog") log w2)
                 /\ trace st'
                    = trace st ++ map EvRead files
                      ++ [EvAnalysisLog (module_name r);
                          EvCreateDocument (py "analysislog")]
             end).
Proof.
  intros lower rt r st first rest files st'; subst st' files.
  rewrite handler_through_reads; cbv zeta.
  pose proof (read_sizes_outcome rt (first :: rest) st) as Hreads.
  destruct (read_sizes rt (first :: rest) st) as [st1 [sizes|e]].
  - right; destruct Hreads as [Hreads Htrace].
    exists sizes, (world st1); split; [exact Hreads|].
    unfold write_entry, bind, call, invoke; simpl log_module.
    destruct (AnalysisLog rt _ (world st1)) as [w2 [err|log]]; simpl.
    + split; [reflexivity | rewrite Htrace, <- app_assoc; reflexivity].
    + destruct (create_document rt (py "analysislog") log w2) as [w3 [err|id]];
        simpl; (split; [reflexivity|]);
        rewrite Htrace, <- !app_assoc; reflexivity.
  - left; destruct Hreads as (done & f & later & sizes & w1 & err & Hsplit & Hdone & Hf & _ & Htrace).
    exists done, f, later, sizes, w1, err; auto.
Qed.

(** Two runs: with unreadable uploads the first read is the only call;
    without a store both files are read, the entry is built and the write
    is attempted. *)
Lemma request_effects_in_order_witness :
  trace (fst (handler ascii_lower broken_upload ApiSnake [cobra_upload; rat_upload]
                broken_upload_idle))
  = [EvRead cobra_upload]
  /\ trace (fst (handler ascii_lower no_store ApiSnake [cobra_upload; rat_upload]
                   no_store_idle))
     = [EvRead cobra_upload; EvRead rat_upload; EvAnalysisLog (py "snake");
        EvCreateDocument (py "analysislog")].
Proof.
  split.
  - destruct (request_effects_in_order ascii_lower broken_upload ApiSnake
                broken_upload_idle cobra_upload [rat_upload])
      as [(done & f & later & sizes & w1 & err & Hsplit & Hdone & _ & Htrace)
         | (sizes & w1 & Hall & _)].
    + destruct done as [|g done].
      * injection Hsplit as <- _; exact Htrace.
      * injection Hsplit as <- _; inversion Hdone as [|? ? ? ? ? ? ? Hread]; subst.
        discriminate Hread.
    + inversion Hall as [|? ? ? ? ? ? ? Hread]; subst; discriminate Hread.
  - destruct (request_effects_in_order ascii_lower no_store ApiSnake
                no_store_idle cobra_upload [rat_upload])
      as [(done & f & later & sizes & w1 & err & _ & _ & Hread & _)
         | (sizes & w1 & _ & Hrun)].
    + discriminate Hread.
    + simpl in Hrun; destruct Hrun as [_ Htrace]; exact Htrace.
Defined.

(** X7: when every file of the batch can be read, the entry a route hands
    to the [AnalysisLog] constructor carries the route's module name, the
    very payload the route returns, and three lists as long as the batch,
    aligned by index: the names, the content types, and for each file the
    number of bytes its read returned. *)
Theorem audit_entry_aligned :
  forall (lower : str -> str) (rt : Runtime) (r : route)
         (first : UploadFile) (rest : list UploadFile)
         (st st1 : State rt) (sizes : list nat),
    let files := first :: rest in
    read_sizes rt files st = (st1, Return sizes) ->
    exists payload args,
      snd (handler lower rt r files st) = Return payload
      /\ fst (handler lower rt r files st) = fst (write_entry rt args st1)
      /\ log_module args = module payload
      /\ log_module args = module_name r
      /\ log_result args = payload
      /\ log_filenames args = map filename files
      /\ log_content_types args = map content_type files
      /\ log_sizes args = sizes
      /\ List.length (log_filenames args) = List.length files
      /\ List.length (log_content_types args) = List.length files
      /\ List.length (log_sizes args) = List.length files
      /\ Forall2 (size_of_read rt) files (log_sizes args).
Proof.
  intros lower rt r first rest st st1 sizes files Hread; subst files.
  destruct (read_sizes_shape rt (first :: rest) st) as (k & _ & _ & Hres).
  rewrite Hread in Hres; simpl in Hres; destruct Hres as [_ Hall].
  exists (composed lower r first (List.length (first :: rest))),
    (mkAnalysisLogArgs (module_name r) (map filename (first :: rest))
       (map content_type (first :: rest)) sizes
       (composed lower r first (List.length (first :: rest)))).
  split; [apply handler_returns|].
  split; [rewrite handler_through_reads; cbv zeta; rewrite Hread; reflexivity|].
  split; [symmetry; apply payload_module|].
  cbn [log_module log_result log_filenames log_content_types log_sizes].
  rewrite !length_map.
  repeat split; auto.
  symmetry; eapply Forall2_length; exact Hall.
Qed.

Lemma audit_entry_aligned_witness :
  let files := [random_upload; cow_upload] in
  exists payload args,
    read_sizes memory_store files memory_store_idle
    = (mkState memory_store [] [EvRead random_upload; EvRead cow_upload],
       Return [2; 3])
    /\ snd (handler ascii_lower memory_store ApiEmotion files memory_store_idle)
       = Return payload
    /\ world (fst (handler ascii_lower memory_store ApiEmotion files memory_store_idle))
       = [args]
    /\ log_result args = payload
    /\ log_module args = py "emotion"
    /\ log_sizes args = [2; 3]
    /\ List.length (log_filenames args) = 2.
Proof.
  cbv zeta.
  destruct (audit_entry_aligned ascii_lower memory_store ApiEmotion
              random_upload [cow_upload] memory_store_idle
              (mkState memory_store [] [EvRead random_upload; EvRead cow_upload])
              [2; 3] eq_refl)
    as (payload & args & Hret & Hrun & _ & Hmod & Hres & _ & _ & Hsizes & Hnames & _).
  exists payload, args.
  split; [reflexivity|]. split; [exact Hret|].
  split; [rewrite Hrun; reflexivity|].
  split; [exact Hres|]. split; [exact Hmod|]. split; [exact Hsizes | exact Hnames].
Defined.

(** X8: whatever the collaborators do, a request with files is answered
    200, never 500, with a payload whose module is the route's, which
    holds three predictions and whose meta has exactly the route's keys,
    in order: [danger] is there for the snake route only. *)
Theorem response_schema :
  forall (lower : str -> str) (rt : Runtime) (r : route) (st : State rt)
         (first : UploadFile) (rest : list UploadFile),
    exists payload,
      snd (post lower rt r (first :: rest) st) = Replied (mkResponse 200 (Json payload))
      /\ respond (snd (handler lower rt r (first :: rest) st))
         = mkResponse 200 (Json payload)
      /\ module payload = module_name r
      /\ List.length (predictions payload) = 3
      /\ map fst (meta payload) = meta_keys r
      /\ has_key (py "danger") (meta payload)
         = match r with ApiSnake => true | _ => false end.
Proof.
  intros lower rt r st first rest.
  rewrite post_with_files; cbn [snd].
  rewrite handler_returns; eexists; split; [reflexivity|].
  split; [reflexivity|].
  split; [apply payload_module|].
  split; [|split].
  - destruct r; simpl predictions; by_branch lower (filename first); reflexivity.
  - destruct r; reflexivity.
  - destruct r; reflexivity.
Qed.

(** ** The health report in detail *)

(** X9: the report has exactly the six documented keys, in the order of
    the initial dict: the updates of [test_database] replace values and
    never add or drop a key. *)
Theorem report_keys_are_fixed :
  forall (rt : Runtime) (st : State rt),
    exists st' report,
      test_database rt st = (st', Return report)
      /\ map fst report = documented_fields.
Proof.
  intros rt st; run_test_database; do 2 eexists; split; reflexivity.
Qed.

(** X10: [database_url] and [database_name] of the report say whether
    the environment variables DATABASE_URL and DATABASE_NAME hold a
    non-empty text, and nothing else: whatever was written there from the
    database handle is overwritten before the report is returned. *)
Theorem report_flags_come_from_environment :
  forall (rt : Runtime) (st : State rt),
    exists st' report,
      test_database rt st = (st', Return report)
      /\ dict_get (py "database_url") report
         = Some (VStr (match getenv rt (py "DATABASE_URL") (world st') with
                       | Some (_ :: _) => CHECK_MARK ++ py " Set"
                       | _ => CROSS_MARK ++ py " Not Set"
                       end))
      /\ dict_get (py "database_name") report
         = Some (VStr (match getenv rt (py "DATABASE_NAME") (world st') with
                       | Some (_ :: _) => CHECK_MARK ++ py " Set"
                       | _ => CROSS_MARK ++ py " Not Set"
                       end)).
Proof.
  intros rt st; run_test_database; do 2 eexists;
    (split; [reflexivity|]); unfold env_flag, truthy; simpl world;
    repeat match goal with
           | |- context [getenv ?rt ?k ?w] => destruct (getenv rt k w) as [[|? ?]|]
           end;
    split; reflexivity.
Qed.

(** X11: the health check imports the handle once, lists the collections
    at most once and only when the import gave a handle; it reads no
    upload and writes no document. *)
Theorem health_check_only_probes :
  forall (rt : Runtime) (st : State rt),
    trace (fst (test_database rt st))
    = trace st
      ++ EvImportDb
         :: match snd (import_db rt (world st)) with
            | inr (Some _) => [EvListCollectionNames]
            | _ => []
            end.
Proof.
  intros rt st; run_test_database; simpl; rewrite <- ?app_assoc; reflexivity.
Qed.

(** X12: however long the message of an exception is, the [database]
    text of the report has at most 75 characters. *)
Theorem database_text_is_bounded :
  forall (rt : Runtime) (st : State rt),
    exists st' report text,
      test_database rt st = (st', Return report)
      /\ dict_get (py "database") report = Some (VStr text)
      /\ List.length text <= 75.
Proof.
  intros rt st; run_test_database; do 3 eexists;
    (split; [reflexivity|]); (split; [reflexivity|]);
    unfold slice_to;
    try match goal with
        | |- context [firstn 50 ?m] =>
            let H := fresh "Hcut" in
            pose proof (firstn_le_length 50 m) as H;
            revert H; generalize (firstn 50 m); intros cut H
        end;
    rewrite ?length_app; simpl; lia.
Qed.

(** The bound is reached: a listing error with a long message fills all
    75 characters. *)
Example database_text_reaches_bound :
  let rt :=
    mkRuntime unit unit unit
      (fun _ w => (w, inr []))
      (fun _ w => (w, inr tt))
      (fun _ _ w => (w, inr []))
      (fun w => (w, inr (Some tt)))
      (fun _ => None)
      (fun _ w => (w, inl (OtherError (repeat 120%N 200))))
      (fun _ _ => None) in
  option_map (fun v => match v with VStr text => List.length text | _ => 0 end)
    (match snd (test_database rt (mkState rt tt [])) with
     | Return report => dict_get (py "database") report
     | Raise _ => None
     end)
  = Some 75.
Proof. reflexivity. Qed.

(** X13: collection names appear in the report only for a store that
    answered the listing: then [database] reads "Connected & Working" and
    [connection_status] reads "Connected". *)
Theorem collections_only_from_working_store :
  forall (rt : Runtime) (st : State rt),
    exists st' report names,
      test_database rt st = (st', Return report)
      /\ dict_get (py "collections") report = Some (VList names)
      /\ (names <> [] ->
          dict_get (py "database") report
          = Some (VStr (CHECK_MARK ++ py " Connected & Working"))
          /\ dict_get (py "connection_status") report
             = Some (VStr (py "Connected"))).
Proof.
  intros rt st; run_test_database; do 3 eexists;
    (split; [reflexivity|]); (split; [reflexivity|]);
    intros Hne; try (exfalso; apply Hne; reflexivity);
    split; reflexivity.
Qed.

Lemma collections_only_from_working_store_witness :
  exists report,
    snd (test_database memory_store memory_store_idle) = Return report
    /\ dict_get (py "collections") report = Some (VList [py "analysislog"])
    /\ dict_get (py "database") report
       = Some (VStr (CHECK_MARK ++ py " Connected & Working")).
Proof.
  destruct (collections_only_from_working_store memory_store memory_store_idle)
    as (st' & report & names & Hrun & Hnames & Hworking).
  exists report.
  assert (Hreport : snd (test_database memory_store memory_store_idle) = Return report)
    by (rewrite Hrun; reflexivity).
  split; [exact Hreport|].
  assert (Hlist : names = [py "analysislog"]).
  { injection Hreport as <-. simpl in Hnames. injection Hnames as <-. reflexivity. }
  subst names; split; [exact Hnames|].
  apply Hworking; discriminate.
Defined.
